(** * cb-apigw, restapigw/pkg/errors: error chains and the boundary handler

    A shallow embedding of [restapigw/pkg/errors/error.go].  The top level of
    this file plays the role of package [errors]; the packages it imports are
    the modules [http], [fmt], [debug], [observability], [logging] and
    [render].

    Conventions.
    - A Go [string] is a [string] (a sequence of bytes), a Go [int] is a [Z];
      no arithmetic is done on status codes, so no wrap-around is involved.
    - A value of interface type [error] is an [option error]: [None] is the
      nil interface, [Some e] a non-nil one.  A value of type [interface{}]
      is an [any].
    - Pointers to the node types are only ever made by the constructors of
      this package ([&fundamental{..}], [&withStack{..}], [&withMessage{..}],
      [&Error{..}]), which never yield a nil pointer, and the wrap
      constructors refuse a nil cause; nodes therefore hold their fields
      and their cause directly.  Values are compared structurally.
    - [callers()] reads the call stack of the running goroutine: the
      snapshot it returns is an argument of the function that calls it. *)

From Stdlib Require Import ZArith Ascii List Lia.
From stdpp Require Import base option gmap strings pretty.

Set Warnings "-register-all".

Local Open Scope Z_scope.

(** ** Imported packages: constants of [net/http] *)

Module http.
Definition StatusBadRequest : Z := 400.
Definition StatusNotFound : Z := 404.
Definition StatusInternalServerError : Z := 500.
End http.

(** ** Types *)

(** Modelled from the spec: the type [stack] ([stack.go] is not part of the
    sources at hand).  A snapshot is "an ordered, immutable sequence of
    call-frame descriptors (function name, file, line)". *)
Record Frame : Type := mkFrame {
  function : string;
  file : string;
  line : N
}.

Definition stack : Type := list Frame.

(** [Error]: the user-defined error carrying an HTTP status.  The struct tags
    are [json:"-"] on [Code] and [json:"error"] on [Message]. *)
Record Error : Type := mkError {
  Code : Z;
  Message : string
}.

(** The values of interface type [error] that are not nil.

    - [ptr_Error]       : [*Error]
    - [ptr_fundamental] : [*fundamental{msg, *stack}]
    - [ptr_withStack]   : [*withStack{error, *stack}]
    - [ptr_withMessage] : [*withMessage{cause, msg}]
    - [foreign]         : an error made outside this package whose type has
                          the method [Error() string] and nothing else this
                          package looks for (no [Cause], no [Format])
    - [foreign_causer]  : an error made outside this package whose type has
                          [Error() string] and [Cause() error]; its [Cause()]
                          returns the given interface value, possibly nil. *)
Inductive error : Type :=
| ptr_Error (e : Error)
| ptr_fundamental (msg : string) (stk : stack)
| ptr_withStack (err : error) (stk : stack)
| ptr_withMessage (cause : error) (msg : string)
| foreign (msg : string)
| foreign_causer (msg : string) (cause : option error).

(** The values of type [interface{}] the handler can be handed: the nil
    interface, an error, or a plain value that is not an error. *)
Inductive any : Type :=
| nil_any
| any_error (e : error)
| any_string (s : string)
| any_int (n : Z)
| any_bool (b : bool).

(** Assigning an [error] to an [interface{}]: a nil interface stays nil. *)
Definition to_any (err : option error) : any :=
  match err with
  | None => nil_any
  | Some e => any_error e
  end.

(** Induction over chains that also descends below a [foreign_causer]. *)
Section error_induction.
Variable P : error -> Prop.
Hypothesis H_Error : forall e, P (ptr_Error e).
Hypothesis H_fundamental : forall msg stk, P (ptr_fundamental msg stk).
Hypothesis H_withStack : forall err stk, P err -> P (ptr_withStack err stk).
Hypothesis H_withMessage : forall cause msg, P cause -> P (ptr_withMessage cause msg).
Hypothesis H_foreign : forall msg, P (foreign msg).
Hypothesis H_causer_nil : forall msg, P (foreign_causer msg None).
Hypothesis H_causer : forall msg c, P c -> P (foreign_causer msg (Some c)).

Fixpoint error_chain_ind (e : error) : P e :=
  match e with
  | ptr_Error e0 => H_Error e0
  | ptr_fundamental msg stk => H_fundamental msg stk
  | ptr_withStack err stk => H_withStack err stk (error_chain_ind err)
  | ptr_withMessage cause msg => H_withMessage cause msg (error_chain_ind cause)
  | foreign msg => H_foreign msg
  | foreign_causer msg None => H_causer_nil msg
  | foreign_causer msg (Some c) => H_causer msg c (error_chain_ind c)
  end.
End error_induction.

(** ** Implementations *)

(** [func (e *Error) Error() string], [func (f *fundamental) Error() string],
    the [Error] promoted from the [error] embedded in [withStack], and
    [func (w *withMessage) Error() string], reached through the interface. *)
Fixpoint error_Error (e : error) : string :=
  match e with
  | ptr_Error e0 => Message e0
  | ptr_fundamental msg _ => msg
  | ptr_withStack err _ => error_Error err
  | ptr_withMessage cause msg => msg +:+ ": " +:+ error_Error cause
  | foreign msg => msg
  | foreign_causer msg _ => msg
  end.

(** The type assertion [err.(causer)] followed by [cause.Cause()]: [None]
    when the dynamic type has no [Cause] method, otherwise what it returns. *)
Definition causer (e : error) : option (option error) :=
  match e with
  | ptr_withStack err _ => Some (Some err)
  | ptr_withMessage cause _ => Some (Some cause)
  | foreign_causer _ c => Some c
  | ptr_Error _ | ptr_fundamental _ _ | foreign _ => None
  end.

(** *** Formatting *)

(** Imported package [fmt]: the part of [fmt.State] the methods consult, and
    the state [fmt] hands to a [Format] method while printing [%+v] (only
    the plus flag is set). *)
Module fmt.
Definition rune : Type := ascii.

Record State : Type := mkState { Flag : rune -> bool }.

Definition plus_v : State := {| Flag := fun c => Ascii.eqb c "+"%char |}.
Definition plain : State := {| Flag := fun _ => false |}.
End fmt.

Definition LF : string := String (ascii_of_nat 10) EmptyString.

Section Formatting.
(** What [fmt.Fprintf(s, "%q", str)] writes for a string: [strconv.Quote]. *)
Variable strconv_Quote : string -> string.
(** [func (s *stack) Format(st fmt.State, verb rune)] of [stack.go], which
    is not part of the sources at hand: the text it writes. *)
Variable stack_Format : stack -> fmt.State -> fmt.rune -> string.

Section Methods.
(** What [fmt.Fprintf(s, "%+v", x)] writes for an error operand [x]; [fmt]
    calls back into the operand's [Format] method (see [Fprintf_plus_v]
    below, which closes the recursion). *)
Variable fmt_Fprintf_plus_v : error -> string.

(** [func (f *fundamental) Format(s fmt.State, verb rune)] *)
Definition fundamental_Format (msg : string) (stk : stack)
    (s : fmt.State) (verb : fmt.rune) : string :=
  if Ascii.eqb verb "v"%char then
    if fmt.Flag s "+"%char then msg +:+ stack_Format stk s verb
    else msg
  else if Ascii.eqb verb "s"%char then msg
  else if Ascii.eqb verb "q"%char then strconv_Quote msg
  else "".

(** [func (w *withStack) Format(s fmt.State, verb rune)]; [w.Cause()] is
    the embedded error and [w.Error()] its promoted method. *)
Definition withStack_Format (err : error) (stk : stack)
    (s : fmt.State) (verb : fmt.rune) : string :=
  if Ascii.eqb verb "v"%char then
    if fmt.Flag s "+"%char then fmt_Fprintf_plus_v err +:+ stack_Format stk s verb
    else error_Error (ptr_withStack err stk)
  else if Ascii.eqb verb "s"%char then error_Error (ptr_withStack err stk)
  else if Ascii.eqb verb "q"%char then strconv_Quote (error_Error (ptr_withStack err stk))
  else "".

(** [func (w *withMessage) Format(s fmt.State, verb rune)] *)
Definition withMessage_Format (cause : error) (msg : string)
    (s : fmt.State) (verb : fmt.rune) : string :=
  if Ascii.eqb verb "v"%char then
    if fmt.Flag s "+"%char then (fmt_Fprintf_plus_v cause +:+ LF) +:+ msg
    else error_Error (ptr_withMessage cause msg)
  else if Ascii.eqb verb "s"%char || Ascii.eqb verb "q"%char then
    error_Error (ptr_withMessage cause msg)
  else "".
End Methods.

(** [fmt.Fprintf(s, "%+v", x)] for an error operand: a type with a [Format]
    method is printed by that method, under the state [fmt.plus_v] and the
    verb [v]; any other error is printed as its [Error()]. *)
Fixpoint Fprintf_plus_v (x : error) : string :=
  match x with
  | ptr_fundamental msg stk =>
      fundamental_Format msg stk fmt.plus_v "v"%char
  | ptr_withStack err stk =>
      withStack_Format Fprintf_plus_v err stk fmt.plus_v "v"%char
  | ptr_withMessage cause msg =>
      withMessage_Format Fprintf_plus_v cause msg fmt.plus_v "v"%char
  | ptr_Error _ | foreign _ | foreign_causer _ _ => error_Error x
  end.

(** The [Format] method of a node, for the node types that have one. *)
Definition Format (x : error) (s : fmt.State) (verb : fmt.rune) : option string :=
  match x with
  | ptr_fundamental msg stk => Some (fundamental_Format msg stk s verb)
  | ptr_withStack err stk => Some (withStack_Format Fprintf_plus_v err stk s verb)
  | ptr_withMessage cause msg => Some (withMessage_Format Fprintf_plus_v cause msg s verb)
  | ptr_Error _ | foreign _ | foreign_causer _ _ => None
  end.
End Formatting.

(** ** Public functions of the chain *)

Section Constructors.
(** [fmt.Sprintf(format, args...)]. *)
Variable fmt_Sprintf : string -> list any -> string.

(** [func New(message string) error] *)
Definition New (callers : stack) (message : string) : option error :=
  Some (ptr_fundamental message callers).

(** [func Errorf(format string, args ...interface{}) error] *)
Definition Errorf (callers : stack) (format : string) (args : list any) : option error :=
  Some (ptr_fundamental (fmt_Sprintf format args) callers).

(** [func NewWithCode(code int, message string) *Error] *)
Definition NewWithCode (code : Z) (message : string) : Error :=
  {| Code := code; Message := message |}.

(** [func Wrap(err error, message string) error] *)
Definition Wrap (callers : stack) (err : option error) (message : string) : option error :=
  match err with
  | None => None
  | Some e =>
      let err' := ptr_withMessage e message in
      Some (ptr_withStack err' callers)
  end.

(** [func Wrapf(err error, format string, args ...interface{}) error] *)
Definition Wrapf (callers : stack) (err : option error) (format : string)
    (args : list any) : option error :=
  match err with
  | None => None
  | Some e =>
      let err' := ptr_withMessage e (fmt_Sprintf format args) in
      Some (ptr_withStack err' callers)
  end.

(** [func WithStack(err error) error] *)
Definition WithStack (callers : stack) (err : option error) : option error :=
  match err with
  | None => None
  | Some e => Some (ptr_withStack e callers)
  end.

(** [func WithMessage(err error, message string) error] *)
Definition WithMessage (err : option error) (message : string) : option error :=
  match err with
  | None => None
  | Some e => Some (ptr_withMessage e message)
  end.
End Constructors.

(** [ErrRouteNotFound] and [ErrInvalidID]. *)
Definition ErrRouteNotFound : Error :=
  NewWithCode http.StatusNotFound "no API found with those values".
Definition ErrInvalidID : Error :=
  NewWithCode http.StatusBadRequest "please provide a valid ID".

(** [func Cause(err error) error].  The loop
    [for nil != err { cause, ok := err.(causer); if !ok { break }; err = cause.Cause() }]
    walks down a finite chain, so it is a structural recursion on the error
    at hand; [Cause_loop] is the loop entered with a non-nil [err]. *)
Fixpoint Cause_loop (e : error) : option error :=
  match e with
  | ptr_withStack err _ => Cause_loop err
  | ptr_withMessage cause _ => Cause_loop cause
  | foreign_causer _ (Some c) => Cause_loop c
  | foreign_causer _ None => None
  | ptr_Error _ | ptr_fundamental _ _ | foreign _ => Some e
  end.

Definition Cause (err : option error) : option error :=
  match err with
  | None => None
  | Some e => Cause_loop e
  end.

(** The same loop run turn by turn, [fuel] turns at most: [None] when the
    turns are used up before the loop is left.  [depth] counts the [Cause]
    methods between a value and the end of its chain. *)
Fixpoint Cause_for (fuel : nat) (err : option error) : option (option error) :=
  match fuel with
  | O => None
  | S fuel' =>
      match err with
      | None => Some None
      | Some e =>
          match causer e with
          | None => Some (Some e)
          | Some cause => Cause_for fuel' cause
          end
      end
  end.

Fixpoint depth (e : error) : nat :=
  match e with
  | ptr_withStack err _ => S (depth err)
  | ptr_withMessage cause _ => S (depth cause)
  | foreign_causer _ (Some c) => S (depth c)
  | foreign_causer _ None => 1
  | ptr_Error _ | ptr_fundamental _ _ | foreign _ => 0
  end.

(** ** The world around the handler *)

(** A JSON document, as written to a response. *)
Inductive json : Type :=
| JNull
| JBool (b : bool)
| JNumber (n : Z)
| JString (s : string)
| JObject (members : list (string * json)).

(** An [http.ResponseWriter] is known by the identity of the response it
    writes to; a [*http.Request] by what its context carries. *)
Definition ResponseWriter : Type := N.

Record Context : Type := mkContext { request_id : option string }.
Record Request : Type := mkRequest { Request_Context : Context }.

Inductive Level : Type := ErrorLevel | InfoLevel.

(** What the handler does to the outside, in the order it happens: a log
    entry handed to the log output, a response written through a writer. *)
Inductive event : Type :=
| Logged (level : Level) (message : string) (fields : gmap string any)
| Written (rw : ResponseWriter) (status : Z) (body : json).

(** The state a call runs in: the fields of the logger of the process, the
    text [debug.Stack()] formats for the running goroutine, and the events
    so far. *)
Record World : Type := mkWorld {
  process_logger : gmap string any;
  goroutine_stack : string;
  events : list event
}.

(** A call in progress: the world, and the logging scopes the call has
    opened, each with the fields attached to it so far. *)
Record Call : Type := mkCall {
  world : World;
  scopes : list (gmap string any)
}.

(** Effects are threaded through a state monad over [Call]. *)
Definition M (A : Type) : Type := Call -> A * Call.

#[global] Instance M_ret : MRet M := fun A a w => (a, w).

#[global] Instance M_bind : MBind M :=
  fun A B k m w => let (a, w') := m w in k a w'.

(** The world after some more events. *)
Definition add_events (w : World) (evs : list event) : World :=
  {| process_logger := process_logger w;
     goroutine_stack := goroutine_stack w;
     events := events w ++ evs |}.

Definition emit (ev : event) : M unit :=
  fun c => (tt, {| world := add_events (world c) [ev]; scopes := scopes c |}).

(** The world a call leaves behind: it starts with no scope open, and its
    scopes end with it. *)
Definition exec {A : Type} (m : M A) (w : World) : World :=
  world (snd (m {| world := w; scopes := [] |})).

(** Imported package [runtime/debug]. *)
Module debug.
(** [debug.Stack()]: a fresh rendering of the stack of the goroutine. *)
Definition Stack : M string := fun c => (goroutine_stack (world c), c).
End debug.

(** Modelled from the spec: package [observability] (not part of the
    sources at hand), "a pure read
    [correlationID(requestContext) -> identifier-or-absent]". *)
Module observability.
Definition RequestIDFromContext (ctx : Context) : option string :=
  request_id ctx.
End observability.

(** The correlation id as the [interface{}] argument of [WithField]. *)
Definition any_of_id (id : option string) : any :=
  match id with
  | Some s => any_string s
  | None => nil_any
  end.

(** Modelled from the spec: package [logging] (not part of the sources at
    hand).  "Obtain the correlation id from [requestContext] ... and attach
    it to a logging scope (external collaborator) for the remainder of this
    call": a logger is the logging scope of the call, [WithField],
    [WithError] and [SetFields] attach fields to the scope they are called
    on and give that same scope back, so that calls chain in "the shape
    [withField(key, value)... .log(severity, message)]", and [Info] and
    [Error] emit one entry of their severity with the fields attached to
    the scope so far.  The scope [GetLogger] gives starts from the fields of
    the logger of the process.  A [Logger] is the position of its scope
    among the scopes of the call. *)
Module logging.
Abbreviation Fields := (gmap string any).

Definition Logger : Type := nat.

Definition GetLogger : M Logger :=
  fun c => (length (scopes c),
            {| world := world c;
               scopes := scopes c ++ [process_logger (world c)] |}).

Definition attach (l : Logger) (f : Fields -> Fields) : M Logger :=
  fun c => (l, {| world := world c; scopes := alter f l (scopes c) |}).

Definition attached (l : Logger) (c : Call) : Fields :=
  default ∅ (scopes c !! l).

Definition WithField (l : Logger) (key : string) (value : any) : M Logger :=
  attach l (insert key value).

Definition WithError (l : Logger) (err : error) : M Logger :=
  WithField l "error" (any_error err).

Definition SetFields (l : Logger) (fields : Fields) : M Logger :=
  attach l (fun d => fields ∪ d).

Definition Info (l : Logger) (message : string) : M unit :=
  fun c => emit (Logged InfoLevel message (attached l c)) c.

Definition Error (l : Logger) (message : string) : M unit :=
  fun c => emit (Logged ErrorLevel message (attached l c)) c.
End logging.

(** Modelled from the spec: package [render] (not part of the sources at
    hand), "[writeJSON(responseSink, httpStatus, payload)]", which "writes a
    status code and payload to the response stream".  The payload is
    encoded as JSON does it for Go values: nil is [null], a string a JSON
    string, and a struct an object of its exported, tagged fields, which
    for [*Error] is the one member [error] ([Code] is tagged [-]).  The
    chain nodes export no field; an error made elsewhere is taken to export
    none either (the handler never renders one). *)
Module render.
Definition marshal (v : any) : json :=
  match v with
  | nil_any => JNull
  | any_string s => JString s
  | any_int n => JNumber n
  | any_bool b => JBool b
  | any_error (ptr_Error e) => JObject [("error", JString (Message e))]
  | any_error _ => JObject []
  end.

Definition JSON (rw : ResponseWriter) (code : Z) (v : any) : M unit :=
  emit (Written rw code (marshal v)).
End render.

(** ** The boundary handler *)

(** [func Handler(rw http.ResponseWriter, req *http.Request, err interface{})].
    The result of the first [WithField] is not bound to anything in the
    source: the call is made for what it attaches to [logger]. *)
Definition Handler (rw : ResponseWriter) (req : Request) (err : any) : M unit :=
  logger ← logging.GetLogger;
  logging.WithField logger "request-id"
    (any_of_id (observability.RequestIDFromContext (Request_Context req)));;
  match err with
  | any_error (ptr_Error internalErr) =>
      l ← logging.SetFields logger
             {[ "code" := any_int (Code internalErr);
                "error" := any_string (error_Error (ptr_Error internalErr)) ]};
      logging.Info l "Internal error handled";;
      render.JSON rw (Code internalErr) (any_error (ptr_Error internalErr))
  | any_error internalErr =>
      l ← logging.WithError logger internalErr;
      trace ← debug.Stack;
      l ← logging.WithField l "stack" (any_string trace);
      logging.Error l "Internal server error handled";;
      render.JSON rw http.StatusInternalServerError
        (any_string (error_Error internalErr))
  | _ =>
      l ← logging.WithField logger "error" err;
      trace ← debug.Stack;
      l ← logging.WithField l "stack" (any_string trace);
      logging.Error l "Internal server error handled";;
      render.JSON rw http.StatusInternalServerError err
  end.

(** [func NotFound(rw http.ResponseWriter, req *http.Request)] *)
Definition NotFound (rw : ResponseWriter) (req : Request) : M unit :=
  Handler rw req (any_error (ptr_Error ErrRouteNotFound)).

(** [func RecoveryHandler(rw http.ResponseWriter, req *http.Request, err interface{})] *)
Definition RecoveryHandler (rw : ResponseWriter) (req : Request) (err : any) : M unit :=
  Handler rw req err.

(** ** Vocabulary of the properties *)

(** The classification the type switch of [Handler] makes. *)
Definition is_nil (v : any) : bool :=
  match v with
  | nil_any => true
  | _ => false
  end.

Definition is_error (v : any) : bool :=
  match v with
  | any_error _ => true
  | _ => false
  end.

Definition is_SentinelError (v : any) : bool :=
  match v with
  | any_error (ptr_Error _) => true
  | _ => false
  end.

(** The node types that have a [Format] method. *)
Definition has_Format (x : error) : bool :=
  match x with
  | ptr_fundamental _ _ | ptr_withStack _ _ | ptr_withMessage _ _ => true
  | ptr_Error _ | foreign _ | foreign_causer _ _ => false
  end.

(** A call that logs once at error severity and then answers once, with
    status 500. *)
Definition answers_500 (rw : ResponseWriter) (req : Request) (err : any)
    (w : World) : Prop :=
  exists (fields : gmap string any) (body : json),
    events (exec (Handler rw req err) w) =
    events w ++ [Logged ErrorLevel "Internal server error handled" fields;
                 Written rw http.StatusInternalServerError body].

(** Following the wording of the specification: "a chain's top-level message
    is the concatenation, in outer-to-inner wrap order, of every
    MessageAnnotated message joined by [": "], terminating in the
    Fundamental's message".  [annotations] lists the messages of the
    message-only wraps from the outside in, [chain_bottom] is the value
    below every wrap of this package. *)
Fixpoint annotations (e : error) : list string :=
  match e with
  | ptr_withMessage cause msg => msg :: annotations cause
  | ptr_withStack err _ => annotations err
  | _ => []
  end.

Fixpoint chain_bottom (e : error) : error :=
  match e with
  | ptr_withMessage cause _ => chain_bottom cause
  | ptr_withStack err _ => chain_bottom err
  | _ => e
  end.

Definition chain_message (e : error) : string :=
  String.concat ": " (annotations e ++ [error_Error (chain_bottom e)]).

(** ** Sample inputs *)

Definition TAB : string := String (ascii_of_nat 9) EmptyString.
Definition DQ : string := String (ascii_of_nat 34) EmptyString.

(** [strconv.Quote] on strings that need no escape. *)
Definition Quote_no_escape (s : string) : string := DQ +:+ s +:+ DQ.

(** Modelled from the spec: the rendering of a snapshot ([stack.go] is not
    part of the sources at hand), "a short form (nothing ...) and a full
    multi-line form ([+v]-equivalent: one line per frame,
    [function\n\tfile:line])". *)
Definition Frame_text (f : Frame) : string :=
  LF +:+ function f +:+ LF +:+ TAB +:+ file f +:+ ":" +:+ pretty (line f).

Definition stack_Format_lines (stk : stack) (s : fmt.State) (verb : fmt.rune) : string :=
  if Ascii.eqb verb "v"%char && fmt.Flag s "+"%char
  then String.concat "" (map Frame_text stk)
  else "".

Definition stack_at (fn : string) (ln : N) : stack :=
  [ {| function := fn; file := "/app/main.go"; line := ln |} ].

Definition request_42 : Request :=
  {| Request_Context := {| request_id := Some "req-42" |} |}.

Definition world_0 : World :=
  {| process_logger := ∅;
     goroutine_stack := "goroutine 7 [running]:";
     events := [] |}.

(** ** Vocabulary of the further properties *)

(** One of the four wrap-style calls, with what its call site supplies. *)
Inductive wrap_call : Type :=
| call_Wrap (callers : stack) (message : string)
| call_Wrapf (callers : stack) (format : string) (args : list any)
| call_WithStack (callers : stack)
| call_WithMessage (message : string).

Section Pipelines.
Variable fmt_Sprintf : string -> list any -> string.

Definition do_call (c : wrap_call) (err : option error) : option error :=
  match c with
  | call_Wrap callers message => Wrap callers err message
  | call_Wrapf callers format args => Wrapf fmt_Sprintf callers err format args
  | call_WithStack callers => WithStack callers err
  | call_WithMessage message => WithMessage err message
  end.

(** The calls of a list made one after the other on the result of the one
    before, the head of the list first (so the last call is outermost). *)
Definition do_calls (cs : list wrap_call) (err : option error) : option error :=
  fold_left (fun acc c => do_call c acc) cs err.

(** The message a call puts in front, when it puts one. *)
Definition call_message (c : wrap_call) : option string :=
  match c with
  | call_Wrap _ message => Some message
  | call_Wrapf _ format args => Some (fmt_Sprintf format args)
  | call_WithStack _ => None
  | call_WithMessage message => Some message
  end.

Definition prefixed (acc : string) (c : wrap_call) : string :=
  match call_message c with
  | Some m => m +:+ ": " +:+ acc
  | None => acc
  end.
End Pipelines.

(** A chain with other snapshots in the place of the captured ones. *)
Fixpoint restack (f : stack -> stack) (e : error) : error :=
  match e with
  | ptr_fundamental msg stk => ptr_fundamental msg (f stk)
  | ptr_withStack err stk => ptr_withStack (restack f err) (f stk)
  | ptr_withMessage cause msg => ptr_withMessage (restack f cause) msg
  | foreign_causer msg (Some c) => foreign_causer msg (Some (restack f c))
  | ptr_Error _ | foreign _ | foreign_causer _ None => e
  end.

(** What the wraps of a chain add to its verbose form, after the verbose
    form of the value below them: from the innermost wrap outwards, a new
    line and the message for a [withMessage], the snapshot for a
    [withStack]. *)
Fixpoint trail (stack_Format : stack -> fmt.State -> fmt.rune -> string)
    (e : error) : string :=
  match e with
  | ptr_withStack err stk =>
      trail stack_Format err +:+ stack_Format stk fmt.plus_v "v"%char
  | ptr_withMessage cause msg => trail stack_Format cause +:+ LF +:+ msg
  | _ => ""
  end.

(** The responses among some events, in order. *)
Definition responses (evs : list event) : list (ResponseWriter * Z * json) :=
  omap (fun ev => match ev with
                  | Written rw status body => Some (rw, status, body)
                  | Logged _ _ _ => None
                  end) evs.

(** The status [Handler] answers a value with. *)
Definition status_for (err : any) : Z :=
  match err with
  | any_error (ptr_Error e) => Code e
  | _ => http.StatusInternalServerError
  end.

(** The snapshots a chain of this package holds, from the outside in. *)
Fixpoint snapshots (e : error) : list stack :=
  match e with
  | ptr_fundamental _ stk => [stk]
  | ptr_withStack err stk => stk :: snapshots err
  | ptr_withMessage cause _ => snapshots cause
  | ptr_Error _ | foreign _ | foreign_causer _ _ => []
  end.

(** The correlation id of a request, as [Handler] attaches it. *)
Definition correlation (req : Request) : any :=
  any_of_id (observability.RequestIDFromContext (Request_Context req)).

(** * Properties *)

(** ** Strings *)

Lemma append_assoc (s1 s2 s3 : string) :
  (s1 +:+ s2) +:+ s3 = s1 +:+ (s2 +:+ s3).
Proof.
  induction s1 as [| c s1 IH].
  - reflexivity.
  - change (String c ((s1 +:+ s2) +:+ s3) = String c (s1 +:+ (s2 +:+ s3))).
    now rewrite IH.
Qed.

Lemma concat_cons (sep x : string) (xs : list string) :
  xs <> [] -> String.concat sep (x :: xs) = x +:+ sep +:+ String.concat sep xs.
Proof.
  destruct xs as [| y ys]; [congruence | reflexivity].
Qed.

(** ** The message of a chain *)

Lemma error_Error_chain_message (e : error) : error_Error e = chain_message e.
Proof.
  unfold chain_message.
  induction e as [e0 | msg stk | err stk IH | cause msg IH | msg | msg | msg c _]
    using error_chain_ind; try reflexivity.
  - exact IH.
  - cbn [annotations chain_bottom error_Error app].
    rewrite concat_cons by (now destruct (annotations cause)).
    now rewrite <- IH.
Qed.

(** C5: the message of a chain is its message annotations, outer to inner,
    joined by [": "] and ending in the message of the value at the bottom;
    [Error()] of a message-only wrap is its message, [": "] and the cause's
    [Error()]; [Error()] of a stack-only wrap is the [Error()] of what it
    wraps; and [Wrap(Wrap(New("root"), "mid"), "outer").Error()] is
    ["outer: mid: root"], whatever stacks were captured. *)
Theorem C5_message_composition :
  (forall e : error, error_Error e = chain_message e)
  /\ (forall (cause : error) (msg : string),
        error_Error (ptr_withMessage cause msg) = msg +:+ ": " +:+ error_Error cause)
  /\ (forall (err : error) (stk : stack),
        error_Error (ptr_withStack err stk) = error_Error err)
  /\ (forall s0 s1 s2 : stack,
        error_Error <$> Wrap s2 (Wrap s1 (New s0 "root") "mid") "outer"
        = Some "outer: mid: root").
Proof.
  split; [exact error_Error_chain_message |].
  repeat split; reflexivity.
Qed.

(** ** Nil-transparency *)

(** C4: each of the four wrap-style operations returns nil when it is given
    nil: [Wrap(nil, m)], [Wrapf(nil, format, args...)], [WithStack(nil)] and
    [WithMessage(nil, m)]. *)
Theorem C4_nil_transparent (fmt_Sprintf : string -> list any -> string)
    (callers : stack) (m format : string) (args : list any) :
  Wrap callers None m = None
  /\ Wrapf fmt_Sprintf callers None format args = None
  /\ WithStack callers None = None
  /\ WithMessage None m = None.
Proof. repeat split. Qed.

(** Conversely a wrap of an error that is there is never nil. *)
Lemma wrap_of_some_is_some (fmt_Sprintf : string -> list any -> string)
    (callers : stack) (e : error) (m format : string) (args : list any) :
  is_Some (Wrap callers (Some e) m)
  /\ is_Some (Wrapf fmt_Sprintf callers (Some e) format args)
  /\ is_Some (WithStack callers (Some e))
  /\ is_Some (WithMessage (Some e) m).
Proof. repeat split; eexists; reflexivity. Qed.

(** ** The root cause *)

(** One turn of the loop of [Cause]: a value without [Cause] method is
    returned, otherwise the walk goes on from what [Cause()] gave. *)
Lemma Cause_loop_step (e : error) :
  Cause (Some e) =
  match causer e with
  | None => Some e
  | Some c => Cause c
  end.
Proof.
  destruct e as [e0 | msg stk | err stk | cause msg | msg | msg [c |]];
    reflexivity.
Qed.

(** The value [Cause] returns has no [Cause] method left to follow. *)
Lemma Cause_is_root (err : option error) (r : error) :
  Cause err = Some r -> causer r = None.
Proof.
  destruct err as [e |]; [| discriminate].
  induction e as [e0 | msg stk | err stk IH | cause msg IH | msg | msg | msg c IH]
    using error_chain_ind; simpl; intros H;
    try (injection H as <-; reflexivity); try discriminate; auto.
Qed.

(** The loop of [Cause] is left after at most [depth e] turns through a
    [Cause] method, with the value [Cause] gives. *)
Lemma Cause_for_enough (e : error) (fuel : nat) :
  (depth e < fuel)%nat -> Cause_for fuel (Some e) = Some (Cause (Some e)).
Proof.
  revert fuel.
  induction e as [e0 | msg stk | err stk IH | cause msg IH | msg | msg | msg c IH]
    using error_chain_ind; intros [| fuel] Hlt; simpl in *; try lia;
    try reflexivity; try (apply IH; lia).
  destruct fuel; [lia | reflexivity].
Qed.

(** Below the wraps of this package lies the root cause, unless an error
    made elsewhere goes on with a [Cause] of its own. *)
Lemma Cause_chain_bottom (e : error) :
  causer (chain_bottom e) = None -> Cause (Some e) = Some (chain_bottom e).
Proof.
  induction e as [e0 | msg stk | err stk IH | cause msg IH | msg | msg | msg c IH]
    using error_chain_ind; simpl; intros H; auto; discriminate.
Qed.

(** The wraps without a capture of their own keep the root cause too. *)
Lemma Cause_of_annotations (fmt_Sprintf : string -> list any -> string)
    (callers : stack) (e : error) (m format : string) (args : list any) :
  Cause (Wrapf fmt_Sprintf callers (Some e) format args) = Cause (Some e)
  /\ Cause (WithStack callers (Some e)) = Cause (Some e)
  /\ Cause (WithMessage (Some e) m) = Cause (Some e).
Proof. repeat split. Qed.

(** C6: for a non-nil error [e] and a message [m],
    [Cause(Wrap(e, m)) == Cause(e)]; [Cause(nil)] is nil; and [Cause] of a
    value that has no [Cause] method is that value. *)
Theorem C6_Cause_of_Wrap :
  (forall (callers : stack) (e : error) (m : string),
      Cause (Wrap callers (Some e) m) = Cause (Some e))
  /\ Cause None = None
  /\ (forall e : error, causer e = None -> Cause (Some e) = Some e).
Proof.
  split; [reflexivity |]. split; [reflexivity |].
  intros e H. rewrite Cause_loop_step. now rewrite H.
Qed.

Lemma C6_Cause_of_Wrap_witness :
  causer (ptr_fundamental "root" (stack_at "main.load" 12)) = None
  /\ Cause (Some (ptr_fundamental "root" (stack_at "main.load" 12)))
     = Some (ptr_fundamental "root" (stack_at "main.load" 12)).
Proof.
  split; [reflexivity |].
  apply (proj2 (proj2 C6_Cause_of_Wrap)). reflexivity.
Defined.

(** ** Verbose formatting *)

Section FormattingFacts.
Variable strconv_Quote : string -> string.
Variable stack_Format : stack -> fmt.State -> fmt.rune -> string.

Local Abbreviation verbose := (Fprintf_plus_v strconv_Quote stack_Format).
Local Abbreviation Format' := (Format strconv_Quote stack_Format).

Lemma verbose_fundamental (msg : string) (stk : stack) :
  verbose (ptr_fundamental msg stk) =
  msg +:+ stack_Format stk fmt.plus_v "v"%char.
Proof. reflexivity. Qed.

Lemma verbose_withStack (err : error) (stk : stack) :
  verbose (ptr_withStack err stk) =
  verbose err +:+ stack_Format stk fmt.plus_v "v"%char.
Proof. reflexivity. Qed.

Lemma verbose_withMessage (cause : error) (msg : string) :
  verbose (ptr_withMessage cause msg) = verbose cause +:+ LF +:+ msg.
Proof.
  cbn [Fprintf_plus_v]. unfold withMessage_Format. simpl.
  apply append_assoc.
Qed.

(** A wrap prints what it wraps first, then its own message on a new
    line, then the stack taken where it was made. *)
Lemma verbose_Wrap (callers : stack) (e : error) (message : string) :
  verbose <$> Wrap callers (Some e) message =
  Some (verbose e +:+ LF +:+ message
          +:+ stack_Format callers fmt.plus_v "v"%char).
Proof.
  cbn [Wrap fmap option_fmap option_map].
  rewrite verbose_withStack, verbose_withMessage.
  now rewrite !append_assoc.
Qed.

Lemma Format_plus_v (x : error) :
  has_Format x = true ->
  Format' x fmt.plus_v "v"%char = Some (verbose x).
Proof. destruct x; (discriminate || reflexivity). Qed.

Lemma Format_s (x : error) (s : fmt.State) :
  has_Format x = true ->
  Format' x s "s"%char = Some (error_Error x).
Proof. destruct x; (discriminate || reflexivity). Qed.

Lemma Format_v_plain (x : error) (s : fmt.State) :
  has_Format x = true -> fmt.Flag s "+"%char = false ->
  Format' x s "v"%char = Some (error_Error x).
Proof.
  intros Hx Hs. destruct x; try discriminate; cbn [Format];
    unfold fundamental_Format, withStack_Format, withMessage_Format;
    cbn [Ascii.eqb Bool.eqb]; now rewrite Hs.
Qed.

Lemma Format_q (x : error) (s : fmt.State) :
  has_Format x = true ->
  Format' x s "q"%char =
  Some (match x with
        | ptr_withMessage _ _ => error_Error x
        | _ => strconv_Quote (error_Error x)
        end).
Proof. destruct x; (discriminate || reflexivity). Qed.
End FormattingFacts.

(** C7: verbose ([%+v]) formatting of
    [Wrap(Wrap(New("root"), "mid"), "outer")] writes, in this order, the
    message of the root, the stack captured by [New], then on a new line
    ["mid"] and the stack captured by the inner [Wrap], then on a new line
    ["outer"] and the stack captured by the outer [Wrap].  It comes out of
    the recursion of the [Format] methods: a wrap prints its cause first.
    Under [%s], under [%v] without the plus flag and under [%q] a node
    writes its message and no stack: as it is for [%s] and [%v]; for [%q]
    through [strconv.Quote] when the node is a [fundamental] or a
    [withStack], and as it is when the node is a [withMessage]. *)
Theorem C7_verbose_format
    (strconv_Quote : string -> string)
    (stack_Format : stack -> fmt.State -> fmt.rune -> string)
    (root_stk mid_stk outer_stk : stack) :
  (Wrap outer_stk (Wrap mid_stk (New root_stk "root") "mid") "outer"
     ≫= (fun x => Format strconv_Quote stack_Format x fmt.plus_v "v"%char)
   = Some ("root" +:+ stack_Format root_stk fmt.plus_v "v"%char
           +:+ LF +:+ "mid" +:+ stack_Format mid_stk fmt.plus_v "v"%char
           +:+ LF +:+ "outer" +:+ stack_Format outer_stk fmt.plus_v "v"%char))
  /\ (forall (callers : stack) (e : error) (message : string),
        Wrap callers (Some e) message
          ≫= (fun x => Format strconv_Quote stack_Format x fmt.plus_v "v"%char)
        = Some (Fprintf_plus_v strconv_Quote stack_Format e +:+ LF +:+ message
                +:+ stack_Format callers fmt.plus_v "v"%char))
  /\ (forall (x : error) (s : fmt.State),
        has_Format x = true ->
        Format strconv_Quote stack_Format x s "s"%char = Some (error_Error x)
        /\ Format strconv_Quote stack_Format x s "q"%char
           = Some (match x with
                   | ptr_withMessage _ _ => error_Error x
                   | _ => strconv_Quote (error_Error x)
                   end)
        /\ (fmt.Flag s "+"%char = false ->
            Format strconv_Quote stack_Format x s "v"%char = Some (error_Error x))).
Proof.
  assert (Hwrap : forall (callers : stack) (e : error) (message : string),
             Wrap callers (Some e) message
               ≫= (fun x => Format strconv_Quote stack_Format x fmt.plus_v "v"%char)
             = Some (Fprintf_plus_v strconv_Quote stack_Format e +:+ LF +:+ message
                     +:+ stack_Format callers fmt.plus_v "v"%char)).
  { intros callers e message.
    pose proof (verbose_Wrap strconv_Quote stack_Format callers e message) as H.
    cbn [Wrap fmap option_fmap option_map mbind option_bind] in *.
    rewrite Format_plus_v by reflexivity. exact H. }
  split; [| split; [exact Hwrap |]].
  - cbn [New Wrap mbind option_bind].
    rewrite Format_plus_v by reflexivity.
    repeat (rewrite verbose_withStack || rewrite verbose_withMessage).
    rewrite verbose_fundamental.
    now rewrite !append_assoc.
  - intros x s Hx. split; [now apply Format_s |].
    split; [now apply Format_q | now apply Format_v_plain].
Qed.

Lemma C7_verbose_format_witness :
  has_Format (ptr_withMessage (ptr_fundamental "root" (stack_at "main.load" 12)) "mid") = true
  /\ fmt.Flag fmt.plain "+"%char = false
  /\ Format Quote_no_escape stack_Format_lines
       (ptr_withMessage (ptr_fundamental "root" (stack_at "main.load" 12)) "mid")
       fmt.plain "v"%char
     = Some "mid: root".
Proof.
  split; [reflexivity |]. split; [reflexivity |].
  apply (proj2 (proj2 (C7_verbose_format Quote_no_escape stack_Format_lines
                         [] [] []))); reflexivity.
Defined.

(** The same chain with concrete snapshots, written out. *)
Example verbose_root_mid_outer :
  Wrap (stack_at "main.serve" 40)
    (Wrap (stack_at "main.open" 27) (New (stack_at "main.load" 12) "root") "mid")
    "outer"
    ≫= (fun x => Format Quote_no_escape stack_Format_lines x fmt.plus_v "v"%char)
  = Some ("root" +:+ LF +:+ "main.load" +:+ LF +:+ TAB +:+ "/app/main.go:12"
          +:+ LF +:+ "mid" +:+ LF +:+ "main.open" +:+ LF +:+ TAB +:+ "/app/main.go:27"
          +:+ LF +:+ "outer" +:+ LF +:+ "main.serve" +:+ LF +:+ TAB +:+ "/app/main.go:40").
Proof. vm_compute. reflexivity. Qed.

(** ** The boundary handler *)

Lemma add_events_app (w : World) (evs1 evs2 : list event) :
  add_events (add_events w evs1) evs2 = add_events w (evs1 ++ evs2).
Proof. unfold add_events. simpl. now rewrite <- app_assoc. Qed.

(** What a call does, branch by branch of the type switch. *)
Lemma Handler_Error (rw : ResponseWriter) (req : Request) (e : Error) (w : World) :
  exec (Handler rw req (any_error (ptr_Error e))) w =
  add_events w
    [Logged InfoLevel "Internal error handled"
       ({[ "code" := any_int (Code e); "error" := any_string (Message e) ]}
          ∪ <["request-id" := correlation req]> (process_logger w));
     Written rw (Code e) (JObject [("error", JString (Message e))])].
Proof. unfold exec, Handler. simpl. apply add_events_app. Qed.

Lemma Handler_error (rw : ResponseWriter) (req : Request) (e : error) (w : World) :
  is_SentinelError (any_error e) = false ->
  exec (Handler rw req (any_error e)) w =
  add_events w
    [Logged ErrorLevel "Internal server error handled"
       (<["stack" := any_string (goroutine_stack w)]>
          (<["error" := any_error e]>
             (<["request-id" := correlation req]> (process_logger w))));
     Written rw http.StatusInternalServerError (JString (error_Error e))].
Proof.
  intros H. destruct e; try discriminate H;
    unfold exec, Handler; simpl; apply add_events_app.
Qed.

Lemma Handler_default (rw : ResponseWriter) (req : Request) (v : any) (w : World) :
  is_error v = false ->
  exec (Handler rw req v) w =
  add_events w
    [Logged ErrorLevel "Internal server error handled"
       (<["stack" := any_string (goroutine_stack w)]>
          (<["error" := v]>
             (<["request-id" := correlation req]> (process_logger w))));
     Written rw http.StatusInternalServerError (render.marshal v)].
Proof.
  intros H. destruct v; try discriminate H;
    unfold exec, Handler; simpl; apply add_events_app.
Qed.

Lemma answers_500_not_sentinel (rw : ResponseWriter) (req : Request) (v : any)
    (w : World) :
  is_SentinelError v = false -> answers_500 rw req v w.
Proof.
  intros H. unfold answers_500. destruct (is_error v) eqn:Hv.
  - destruct v as [| e | | |]; try discriminate Hv.
    rewrite (Handler_error rw req e w H). now eexists _, _.
  - rewrite (Handler_default rw req v w Hv). now eexists _, _.
Qed.

(** C1: handed a [*Error], [Handler] appends exactly one log entry, of
    informational severity and carrying the fields [code] and [error] (the
    status and the message), and then exactly one response, whose status is
    the status of the error and whose body is the JSON object with the one
    member [error] holding the message.  For [ErrRouteNotFound] the status
    is 404 and the body [{"error":"no API found with those values"}]. *)
Theorem C1_sentinel_response (rw : ResponseWriter) (req : Request) (w : World)
    (e : Error) :
  (exists fields : gmap string any,
      events (exec (Handler rw req (any_error (ptr_Error e))) w) =
      events w ++ [Logged InfoLevel "Internal error handled" fields;
                   Written rw (Code e) (JObject [("error", JString (Message e))])]
      /\ fields !! "code" = Some (any_int (Code e))
      /\ fields !! "error" = Some (any_string (Message e)))
  /\ (exists fields : gmap string any,
         events (exec (Handler rw req (any_error (ptr_Error ErrRouteNotFound))) w) =
         events w ++ [Logged InfoLevel "Internal error handled" fields;
                      Written rw 404
                        (JObject [("error", JString "no API found with those values")])]).
Proof.
  split.
  - rewrite Handler_Error. eexists. split; [reflexivity |].
    split; apply lookup_union_Some_l.
    + apply lookup_insert_eq.
    + rewrite lookup_insert_ne by discriminate. apply lookup_singleton_eq.
  - rewrite Handler_Error. eexists. reflexivity.
Qed.

(** C2: a failure value that is not nil and whose outermost shape is not
    [*Error] is answered with status 500.  That holds for a chain made by
    [Wrap], [WithMessage] or [WithStack] around a [*Error], although
    [Cause] of such a chain is that [*Error]: the handler looks at the
    outermost value only. *)
Theorem C2_outermost_shape_decides (rw : ResponseWriter) (req : Request)
    (w : World) (v : any) :
  is_nil v = false ->
  is_SentinelError v = false ->
  answers_500 rw req v w
  /\ (forall (s : Error) (m : string) (callers : stack),
        (Cause (Wrap callers (Some (ptr_Error s)) m) = Some (ptr_Error s)
         /\ answers_500 rw req (to_any (Wrap callers (Some (ptr_Error s)) m)) w)
        /\ (Cause (WithMessage (Some (ptr_Error s)) m) = Some (ptr_Error s)
            /\ answers_500 rw req (to_any (WithMessage (Some (ptr_Error s)) m)) w)
        /\ (Cause (WithStack callers (Some (ptr_Error s))) = Some (ptr_Error s)
            /\ answers_500 rw req (to_any (WithStack callers (Some (ptr_Error s)))) w)).
Proof.
  intros _ Hs. split; [now apply answers_500_not_sentinel |].
  intros s m callers.
  repeat split; now apply answers_500_not_sentinel.
Qed.

Lemma C2_outermost_shape_decides_witness :
  is_nil (to_any (Wrap (stack_at "main.route" 31)
                    (Some (ptr_Error ErrRouteNotFound)) "lookup")) = false
  /\ is_SentinelError (to_any (Wrap (stack_at "main.route" 31)
                                 (Some (ptr_Error ErrRouteNotFound)) "lookup")) = false
  /\ answers_500 1%N request_42
       (to_any (Wrap (stack_at "main.route" 31)
                  (Some (ptr_Error ErrRouteNotFound)) "lookup"))
       world_0.
Proof.
  split; [reflexivity |]. split; [reflexivity |].
  exact (proj1 (C2_outermost_shape_decides 1%N request_42 world_0
                  (to_any (Wrap (stack_at "main.route" 31)
                             (Some (ptr_Error ErrRouteNotFound)) "lookup"))
                  eq_refl eq_refl)).
Defined.

(** C3: handed an error that is not a [*Error], [Handler] appends exactly
    one log entry, of error severity, carrying the error under [error] and
    under [stack] the text [debug.Stack()] gave during the call (which is
    not empty, and is not a stack held by the chain), and then exactly one
    response, of status 500, whose body is the JSON string of the error's
    message. *)
Theorem C3_error_response (rw : ResponseWriter) (req : Request) (w : World)
    (e : error) :
  is_SentinelError (any_error e) = false ->
  goroutine_stack w <> "" ->
  exists (fields : gmap string any) (trace : string),
    events (exec (Handler rw req (any_error e)) w) =
    events w ++ [Logged ErrorLevel "Internal server error handled" fields;
                 Written rw 500 (JString (error_Error e))]
    /\ fields !! "error" = Some (any_error e)
    /\ fields !! "stack" = Some (any_string trace)
    /\ trace = goroutine_stack w
    /\ trace <> "".
Proof.
  intros Hs Hne. rewrite (Handler_error rw req e w Hs).
  eexists _, (goroutine_stack w). split; [reflexivity |].
  split; [| split; [apply lookup_insert_eq | split; [reflexivity | exact Hne]]].
  rewrite lookup_insert_ne by discriminate. apply lookup_insert_eq.
Qed.

Lemma C3_error_response_witness :
  is_SentinelError (any_error (foreign "disk full")) = false
  /\ goroutine_stack world_0 <> ""
  /\ exists (fields : gmap string any) (trace : string),
       events (exec (Handler 1%N request_42 (any_error (foreign "disk full"))) world_0) =
       events world_0 ++ [Logged ErrorLevel "Internal server error handled" fields;
                          Written 1%N 500 (JString "disk full")]
       /\ fields !! "error" = Some (any_error (foreign "disk full"))
       /\ fields !! "stack" = Some (any_string trace)
       /\ trace = goroutine_stack world_0
       /\ trace <> "".
Proof.
  split; [reflexivity |]. split; [discriminate |].
  refine (C3_error_response 1%N request_42 world_0 (foreign "disk full")
            eq_refl _).
  discriminate.
Defined.

(** C9: handed a value that is not an error, [Handler] appends exactly one
    log entry, of error severity, carrying the value itself under [error]
    and the text of [debug.Stack()] under [stack], and then exactly one
    response, of status 500, whose body is the JSON encoding of the value;
    for the string ["boom"] that body is the JSON string ["boom"]. *)
Theorem C9_plain_value_response (rw : ResponseWriter) (req : Request)
    (w : World) (v : any) :
  is_error v = false ->
  (exists fields : gmap string any,
      events (exec (Handler rw req v) w) =
      events w ++ [Logged ErrorLevel "Internal server error handled" fields;
                   Written rw 500 (render.marshal v)]
      /\ fields !! "error" = Some v
      /\ fields !! "stack" = Some (any_string (goroutine_stack w)))
  /\ (exists fields : gmap string any,
         events (exec (Handler rw req (any_string "boom")) w) =
         events w ++ [Logged ErrorLevel "Internal server error handled" fields;
                      Written rw 500 (JString "boom")]).
Proof.
  intros Hv. split.
  - rewrite (Handler_default rw req v w Hv).
    eexists. split; [reflexivity |].
    split; [| apply lookup_insert_eq].
    rewrite lookup_insert_ne by discriminate. apply lookup_insert_eq.
  - rewrite Handler_default by reflexivity. eexists. reflexivity.
Qed.

Lemma C9_plain_value_response_witness :
  is_error (any_int 7) = false
  /\ exists fields : gmap string any,
       events (exec (Handler 1%N request_42 (any_int 7)) world_0) =
       events world_0 ++ [Logged ErrorLevel "Internal server error handled" fields;
                          Written 1%N 500 (JNumber 7)]
       /\ fields !! "error" = Some (any_int 7)
       /\ fields !! "stack" = Some (any_string (goroutine_stack world_0)).
Proof.
  split; [reflexivity |].
  exact (proj1 (C9_plain_value_response 1%N request_42 world_0 (any_int 7)
                  eq_refl)).
Defined.

(** C10: handed the nil interface, [Handler] does not return silently: nil
    is neither a [*Error] nor an error, so the default branch runs, which
    appends exactly one log entry of error severity and exactly one
    response, of status 500, whose body is the JSON encoding of nil. *)
Theorem C10_nil_is_answered (rw : ResponseWriter) (req : Request) (w : World) :
  events (exec (Handler rw req nil_any) w) =
  events w ++
    [Logged ErrorLevel "Internal server error handled"
       (<["stack" := any_string (goroutine_stack w)]>
          (<["error" := nil_any]>
             (<["request-id" := correlation req]> (process_logger w))));
     Written rw 500 JNull].
Proof. now rewrite Handler_default. Qed.

(** C8: on every call of [Handler] the correlation id read from the context
    of the request is attached to the logging scope of the call, and the
    entry the call then logs, whichever branch of the type switch runs and
    at whichever severity, carries it under [request-id].  For a request
    that carries ["req-42"] the entry has that string there. *)
Theorem C8_request_id_attached (rw : ResponseWriter) (req : Request)
    (err : any) (w : World) :
  (exists (level : Level) (message : string) (fields : gmap string any)
          (status : Z) (body : json),
      events (exec (Handler rw req err) w) =
      events w ++ [Logged level message fields; Written rw status body]
      /\ fields !! "request-id" =
         Some (any_of_id
                 (observability.RequestIDFromContext (Request_Context req))))
  /\ (exists (level : Level) (message : string) (fields : gmap string any)
             (status : Z) (body : json),
         events (exec (Handler rw request_42 err) w) =
         events w ++ [Logged level message fields; Written rw status body]
         /\ fields !! "request-id" = Some (any_string "req-42")).
Proof.
  assert (H : forall req' : Request,
             exists (level : Level) (message : string)
                    (fields : gmap string any) (status : Z) (body : json),
               events (exec (Handler rw req' err) w) =
               events w ++ [Logged level message fields; Written rw status body]
               /\ fields !! "request-id" = Some (correlation req')).
  { intros req'. destruct (is_SentinelError err) eqn:Hs.
    - destruct err as [| [e | | | | |] | | |]; try discriminate Hs.
      rewrite Handler_Error. eexists _, _, _, _, _. split; [reflexivity |].
      rewrite lookup_union_r.
      + apply lookup_insert_eq.
      + rewrite lookup_insert_ne by discriminate.
        now rewrite lookup_singleton_ne by discriminate.
    - destruct (is_error err) eqn:He.
      + destruct err as [| e | | |]; try discriminate He.
        rewrite (Handler_error rw req' e w Hs).
        eexists _, _, _, _, _. split; [reflexivity |].
        rewrite !lookup_insert_ne by discriminate. apply lookup_insert_eq.
      + rewrite (Handler_default rw req' err w He).
        eexists _, _, _, _, _. split; [reflexivity |].
        rewrite !lookup_insert_ne by discriminate. apply lookup_insert_eq. }
  split; [exact (H req) | exact (H request_42)].
Qed.

(** * Further properties of the chain *)

(** ** More on the root cause *)

Lemma Cause_through_wraps (e : error) :
  Cause (Some e) = Cause (Some (chain_bottom e)).
Proof.
  induction e as [e0 | msg stk | err stk IH | cause msg IH | msg | msg | msg c IH]
    using error_chain_ind; simpl in *; auto.
Qed.

(** X1: [Cause] is idempotent: the root cause of a root cause is itself
    (and [Cause] of the nil it may have returned is nil). *)
Theorem X1_Cause_idempotent (err : option error) :
  Cause (Cause err) = Cause err.
Proof.
  destruct (Cause err) as [r |] eqn:Hr; [| reflexivity].
  rewrite Cause_loop_step. now rewrite (Cause_is_root err r Hr).
Qed.

(** X2: what [Cause] returns, when it is not nil, has no [Cause] method. *)
Theorem X2_Cause_returns_a_root (err : option error) (r : error) :
  Cause err = Some r -> causer r = None.
Proof. apply Cause_is_root. Qed.

Lemma X2_Cause_returns_a_root_witness :
  Cause (Wrap (stack_at "main.open" 27) (Some (foreign "disk full")) "open")
    = Some (foreign "disk full")
  /\ causer (foreign "disk full") = None.
Proof.
  split; [reflexivity |].
  exact (X2_Cause_returns_a_root
           (Wrap (stack_at "main.open" 27) (Some (foreign "disk full")) "open")
           (foreign "disk full") eq_refl).
Defined.

(** X3: [Cause] looks through every wrap of this package: it is the [Cause]
    of the value below them.  So [Cause] of an error that is not nil can be
    nil: it is, when the value below the wraps is an error made elsewhere
    whose [Cause()] returns nil. *)
Theorem X3_Cause_can_be_nil (e : error) (msg : string) :
  chain_bottom e = foreign_causer msg None ->
  Cause (Some e) = Cause (Some (chain_bottom e)) /\ Cause (Some e) = None.
Proof.
  intros H. split; [apply Cause_through_wraps |].
  rewrite Cause_through_wraps. now rewrite H.
Qed.

Lemma X3_Cause_can_be_nil_witness :
  chain_bottom (ptr_withStack (ptr_withMessage (foreign_causer "eof" None) "read")
                  (stack_at "main.read" 9))
    = foreign_causer "eof" None
  /\ Cause (Wrap (stack_at "main.read" 9) (Some (foreign_causer "eof" None)) "read")
     = None.
Proof.
  split; [reflexivity |].
  exact (proj2 (X3_Cause_can_be_nil
                  (ptr_withStack (ptr_withMessage (foreign_causer "eof" None) "read")
                     (stack_at "main.read" 9))
                  "eof" eq_refl)).
Defined.

(** X4: the loop of [Cause], entered with an error that is not nil, is left
    after exactly [depth e + 1] turns: run with fewer it is still going,
    run with that many or more it gives what [Cause] gives. *)
Theorem X4_Cause_loop_turns (e : error) (fuel : nat) :
  Cause_for fuel (Some e) =
  if (depth e <? fuel)%nat then Some (Cause (Some e)) else None.
Proof.
  revert fuel.
  induction e as [e0 | msg stk | err stk IH | cause msg IH | msg | msg | msg c IH]
    using error_chain_ind; intros [| fuel]; try reflexivity;
    cbn [Cause_for causer depth Cause Cause_loop];
    try (rewrite IH; reflexivity).
  destruct fuel; reflexivity.
Qed.

(** ** How the wrap operations compose *)

Section PipelineFacts.
Variable fmt_Sprintf : string -> list any -> string.

Local Abbreviation do_call' := (do_call fmt_Sprintf).
Local Abbreviation do_calls' := (do_calls fmt_Sprintf).

Lemma do_calls_nil (cs : list wrap_call) : do_calls' cs None = None.
Proof.
  induction cs as [| c cs IH]; [reflexivity |].
  destruct c; exact IH.
Qed.

Lemma do_call_some (c : wrap_call) (e : error) :
  exists e' : error,
    do_call' c (Some e) = Some e'
    /\ Cause (Some e') = Cause (Some e)
    /\ error_Error e' = prefixed fmt_Sprintf (error_Error e) c.
Proof. destruct c; eexists; repeat split. Qed.

Lemma do_calls_some (cs : list wrap_call) (e : error) :
  exists e' : error,
    do_calls' cs (Some e) = Some e'
    /\ Cause (Some e') = Cause (Some e)
    /\ error_Error e' = fold_left (prefixed fmt_Sprintf) cs (error_Error e).
Proof.
  revert e. induction cs as [| c cs IH]; intros e.
  - exists e. repeat split.
  - destruct (do_call_some c e) as (e1 & H1 & HC1 & HE1).
    destruct (IH e1) as (e' & H' & HC' & HE').
    exists e'. unfold do_calls in *. cbn [fold_left]. rewrite H1.
    split; [exact H' |]. split; [congruence |]. now rewrite HE', HE1.
Qed.
End PipelineFacts.

(** X5: [Wrap] is [WithStack] after [WithMessage], and [Wrapf] is [Wrap] of
    the formatted message, on every input, nil included. *)
Theorem X5_Wrap_is_WithStack_of_WithMessage
    (fmt_Sprintf : string -> list any -> string) (callers : stack)
    (err : option error) (message format : string) (args : list any) :
  Wrap callers err message = WithStack callers (WithMessage err message)
  /\ Wrapf fmt_Sprintf callers err format args
     = Wrap callers err (fmt_Sprintf format args).
Proof. destruct err; split; reflexivity. Qed.

(** X6: however many wrap-style calls are made one on the result of the
    other, the result is nil exactly when the error they started from is
    nil. *)
Theorem X6_wraps_keep_nil_and_only_nil
    (fmt_Sprintf : string -> list any -> string) (cs : list wrap_call)
    (err : option error) :
  do_calls fmt_Sprintf cs err = None <-> err = None.
Proof.
  split.
  - destruct err as [e |]; [| reflexivity].
    destruct (do_calls_some fmt_Sprintf cs e) as (e' & H & _).
    rewrite H. discriminate.
  - intros ->. apply do_calls_nil.
Qed.

(** X7: however many wrap-style calls are made one on the result of the
    other, the root cause stays the root cause of the error they started
    from. *)
Theorem X7_wraps_keep_the_root_cause
    (fmt_Sprintf : string -> list any -> string) (cs : list wrap_call)
    (err : option error) :
  Cause (do_calls fmt_Sprintf cs err) = Cause err.
Proof.
  destruct err as [e |].
  - destruct (do_calls_some fmt_Sprintf cs e) as (e' & H & HC & _).
    now rewrite H.
  - now rewrite do_calls_nil.
Qed.

(** X8: the message after a run of wrap-style calls is the message of the
    error they started from with, in front of it, the message of each call
    that has one and [": "], the last call first; [WithStack] adds
    nothing. *)
Theorem X8_wraps_prefix_the_message
    (fmt_Sprintf : string -> list any -> string) (cs : list wrap_call)
    (e : error) :
  error_Error <$> do_calls fmt_Sprintf cs (Some e)
  = Some (fold_left (prefixed fmt_Sprintf) cs (error_Error e)).
Proof.
  destruct (do_calls_some fmt_Sprintf cs e) as (e' & H & _ & HE).
  rewrite H. cbn. now rewrite HE.
Qed.

Example wraps_prefix_the_message_example :
  error_Error <$>
    do_calls (fun format _ => format)
      [call_WithMessage "read"; call_WithStack (stack_at "main.read" 9);
       call_Wrapf (stack_at "main.load" 12) "load" []]
      (Some (foreign "eof"))
  = Some "load: read: eof".
Proof. reflexivity. Qed.

(** ** The length of a message *)

Lemma length_append (s1 s2 : string) :
  String.length (s1 +:+ s2) = (String.length s1 + String.length s2)%nat.
Proof.
  induction s1 as [| c s1 IH]; [reflexivity |].
  change (S (String.length (s1 +:+ s2))
          = S (String.length s1 + String.length s2)).
  now rewrite IH.
Qed.

(** X9: a message-only wrap makes the message longer by the length of its
    own message and two, a stack-only wrap leaves the length as it is: the
    length of [Error()] is the length of the message of the value below the
    wraps plus, for each annotation, its length and two. *)
Theorem X9_message_length (e : error) :
  String.length (error_Error e) =
  (String.length (error_Error (chain_bottom e))
   + list_sum (map (fun m => String.length m + 2) (annotations e)))%nat.
Proof.
  induction e as [e0 | msg stk | err stk IH | cause msg IH | msg | msg | msg c _]
    using error_chain_ind; unfold list_sum in *;
    cbn [error_Error chain_bottom annotations map fold_right];
    try lia.
  rewrite !length_append, IH. cbn [String.length]. lia.
Qed.

(** ** More on formatting *)

Lemma append_nil_r (s : string) : s +:+ "" = s.
Proof.
  induction s as [| c s IH]; [reflexivity |].
  change (String c (s +:+ "") = String c s). now rewrite IH.
Qed.

Lemma concat_snoc (sep x : string) (xs : list string) :
  xs <> [] ->
  String.concat sep (xs ++ [x]) = String.concat sep xs +:+ sep +:+ x.
Proof.
  induction xs as [| y ys IH]; [congruence |]. intros _.
  destruct ys as [| z zs]; [reflexivity |].
  change (String.concat sep ((y :: z :: zs) ++ [x]))
    with (y +:+ sep +:+ String.concat sep ((z :: zs) ++ [x])).
  rewrite IH by discriminate.
  change (String.concat sep (y :: z :: zs))
    with (y +:+ sep +:+ String.concat sep (z :: zs)).
  now rewrite !append_assoc.
Qed.

(** X10: the verbose form of any chain is the verbose form of the value
    below its wraps followed by what the wraps add, from the innermost wrap
    outwards: a new line and the message for each message-only wrap, the
    snapshot for each stack-only wrap. *)
Theorem X10_verbose_is_bottom_then_trail
    (strconv_Quote : string -> string)
    (stack_Format : stack -> fmt.State -> fmt.rune -> string) (e : error) :
  Fprintf_plus_v strconv_Quote stack_Format e =
  Fprintf_plus_v strconv_Quote stack_Format (chain_bottom e)
    +:+ trail stack_Format e.
Proof.
  induction e as [e0 | msg stk | err stk IH | cause msg IH | msg | msg | msg c _]
    using error_chain_ind;
    try (cbn [chain_bottom trail]; now rewrite append_nil_r).
  - rewrite verbose_withStack, IH. cbn [chain_bottom trail].
    now rewrite !append_assoc.
  - rewrite verbose_withMessage, IH. cbn [chain_bottom trail].
    now rewrite !append_assoc.
Qed.

(** X11: for a chain whose own snapshots render as nothing (as an empty
    snapshot does), the verbose form is the message of the value below the
    wraps and then the annotations from the innermost to the outermost, one
    to a line: the reverse of the order [Error()] puts them in. *)
Theorem X11_verbose_order_is_reversed
    (strconv_Quote : string -> string)
    (stack_Format : stack -> fmt.State -> fmt.rune -> string) (e : error) :
  Forall (fun stk => stack_Format stk fmt.plus_v "v"%char = "") (snapshots e) ->
  Fprintf_plus_v strconv_Quote stack_Format e =
  String.concat LF (error_Error (chain_bottom e) :: rev (annotations e)).
Proof.
  induction e as [e0 | msg stk | err stk IH | cause msg IH | msg | msg | msg c _]
    using error_chain_ind; cbn [snapshots]; intros Hnone; try reflexivity.
  - rewrite verbose_fundamental, (Forall_inv Hnone). apply append_nil_r.
  - rewrite verbose_withStack, (Forall_inv Hnone), append_nil_r.
    apply IH. exact (Forall_inv_tail Hnone).
  - rewrite verbose_withMessage, (IH Hnone). cbn [chain_bottom annotations rev].
    change (error_Error (chain_bottom cause) :: rev (annotations cause) ++ [msg])
      with ((error_Error (chain_bottom cause) :: rev (annotations cause)) ++ [msg]).
    now rewrite concat_snoc by discriminate.
Qed.

Lemma X11_verbose_order_is_reversed_witness :
  Forall (fun stk => stack_Format_lines stk fmt.plus_v "v"%char = "")
    (snapshots
       (ptr_withStack
          (ptr_withMessage
             (ptr_withStack (ptr_withMessage (ptr_fundamental "root" []) "mid") [])
             "outer")
          []))
  /\ Fprintf_plus_v Quote_no_escape stack_Format_lines
       (ptr_withStack
          (ptr_withMessage
             (ptr_withStack (ptr_withMessage (ptr_fundamental "root" []) "mid") [])
             "outer")
          [])
     = "root" +:+ LF +:+ "mid" +:+ LF +:+ "outer".
Proof.
  assert (H : Forall (fun stk => stack_Format_lines stk fmt.plus_v "v"%char = "")
                (snapshots
                   (ptr_withStack
                      (ptr_withMessage
                         (ptr_withStack
                            (ptr_withMessage (ptr_fundamental "root" []) "mid") [])
                         "outer")
                      []))).
  { repeat constructor. }
  split; [exact H |].
  exact (X11_verbose_order_is_reversed Quote_no_escape stack_Format_lines
           (ptr_withStack
              (ptr_withMessage
                 (ptr_withStack (ptr_withMessage (ptr_fundamental "root" []) "mid") [])
                 "outer")
              [])
           H).
Defined.

(** X12: under a verb other than [v], [s] and [q] the [Format] method of a
    node writes nothing at all, whatever the flags. *)
Theorem X12_other_verbs_write_nothing
    (strconv_Quote : string -> string)
    (stack_Format : stack -> fmt.State -> fmt.rune -> string)
    (x : error) (s : fmt.State) (verb : fmt.rune) :
  has_Format x = true ->
  verb <> "v"%char -> verb <> "s"%char -> verb <> "q"%char ->
  Format strconv_Quote stack_Format x s verb = Some "".
Proof.
  intros Hx Hv Hs Hq.
  apply Ascii.eqb_neq in Hv, Hs, Hq.
  destruct x; try discriminate Hx; cbn [Format];
    unfold fundamental_Format, withStack_Format, withMessage_Format;
    now rewrite Hv, Hs, Hq.
Qed.

Lemma X12_other_verbs_write_nothing_witness :
  has_Format (ptr_fundamental "root" (stack_at "main.load" 12)) = true
  /\ "d"%char <> "v"%char /\ "d"%char <> "s"%char /\ "d"%char <> "q"%char
  /\ Format Quote_no_escape stack_Format_lines
       (ptr_fundamental "root" (stack_at "main.load" 12)) fmt.plus_v "d"%char
     = Some "".
Proof.
  split; [reflexivity |].
  split; [discriminate |]. split; [discriminate |]. split; [discriminate |].
  apply (X12_other_verbs_write_nothing Quote_no_escape stack_Format_lines
           (ptr_fundamental "root" (stack_at "main.load" 12)) fmt.plus_v "d"%char);
    [reflexivity | discriminate | discriminate | discriminate].
Defined.

Lemma restack_keeps (f : stack -> stack) (e : error) :
  error_Error (restack f e) = error_Error e
  /\ Cause (Some (restack f e)) = restack f <$> Cause (Some e).
Proof.
  induction e as [e0 | msg stk | err stk IH | cause msg IH | msg | msg | msg c IH]
    using error_chain_ind; try (split; reflexivity).
  - exact IH.
  - destruct IH as [IH1 IH2]. split; [| exact IH2].
    cbn [restack error_Error]. now rewrite IH1.
  - split; [reflexivity |]. apply IH.
Qed.

(** X13: the message and the root cause of a chain do not depend on the
    snapshots captured along it: with other snapshots in their place,
    [Error()] is the same string and [Cause] is the same value, up to its
    own snapshot. *)
Theorem X13_stacks_are_not_in_the_message (f : stack -> stack) (e : error) :
  error_Error (restack f e) = error_Error e
  /\ Cause (Some (restack f e)) = restack f <$> Cause (Some e).
Proof. apply restack_keeps. Qed.

(** * Further properties of the boundary handler *)

Lemma responses_app (evs1 evs2 : list event) :
  responses (evs1 ++ evs2) = responses evs1 ++ responses evs2.
Proof. apply omap_app. Qed.

Lemma is_SentinelError_restack (f : stack -> stack) (e : error) :
  is_SentinelError (any_error (restack f e)) = is_SentinelError (any_error e).
Proof. destruct e as [| | | | | ? [|]]; reflexivity. Qed.

(** The outermost node after at least one wrap-style call is a wrap. *)
Lemma do_calls_not_sentinel (fmt_Sprintf : string -> list any -> string)
    (cs : list wrap_call) (e : error) :
  cs <> [] ->
  is_SentinelError (to_any (do_calls fmt_Sprintf cs (Some e))) = false.
Proof.
  destruct cs as [| c cs _] using rev_ind; [congruence |]. intros _.
  unfold do_calls. rewrite fold_left_app. cbn [fold_left].
  destruct (do_calls_some fmt_Sprintf cs e) as (e1 & H1 & _).
  unfold do_calls in H1. rewrite H1. now destruct c.
Qed.

(** X14: what goes to the client does not depend on the snapshots captured
    along the chain handed to [Handler]: with other snapshots in their
    place the responses written are the same. *)
Theorem X14_response_ignores_captured_stacks (rw : ResponseWriter)
    (req : Request) (w : World) (f : stack -> stack) (e : error) :
  responses (events (exec (Handler rw req (any_error (restack f e))) w))
  = responses (events (exec (Handler rw req (any_error e)) w)).
Proof.
  destruct (is_SentinelError (any_error e)) eqn:Hs.
  - destruct e; try discriminate Hs. reflexivity.
  - rewrite (Handler_error rw req e w Hs).
    rewrite (Handler_error rw req (restack f e) w)
      by (now rewrite is_SentinelError_restack).
    cbn [add_events events]. rewrite !responses_app.
    cbn [responses omap list_omap].
    now rewrite (proj1 (restack_keeps f e)).
Qed.

(** X15: every call of [Handler] keeps what was there and appends exactly
    one log entry followed by exactly one response, written through the
    writer it was given.  The entry is of informational severity when the
    value is a [*Error] and of error severity for every other value, nil
    included; the status is the [Code] of a [*Error] and 500 for every
    other value, even one that wraps a [*Error].  [RecoveryHandler] does the
    same as [Handler]. *)
Theorem X15_Handler_classifies (rw : ResponseWriter) (req : Request)
    (err : any) (w : World) :
  exists (level : Level) (message : string) (fields : gmap string any)
         (body : json),
    exec (Handler rw req err) w =
    add_events w [Logged level message fields; Written rw (status_for err) body]
    /\ level = (if is_SentinelError err then InfoLevel else ErrorLevel)
    /\ exec (RecoveryHandler rw req err) w = exec (Handler rw req err) w.
Proof.
  unfold RecoveryHandler.
  destruct (is_SentinelError err) eqn:Hs.
  - destruct err as [| [e | | | | |] | | |]; try discriminate Hs.
    rewrite Handler_Error. now eexists _, _, _, _.
  - destruct (is_error err) eqn:He.
    + destruct err as [| e | | |]; try discriminate He.
      rewrite (Handler_error rw req e w Hs).
      destruct e; try discriminate Hs; now eexists _, _, _, _.
    + rewrite (Handler_default rw req err w He).
      destruct err; try discriminate He; now eexists _, _, _, _.
Qed.

(** X16: a [*Error] never makes [Handler] log a stack trace: its entry has
    under [stack] only what the logger of the process had there.  Every
    other value, nil included, is logged with the text [debug.Stack()] gave
    under [stack]. *)
Theorem X16_stack_trace_only_off_the_sentinel_path (rw : ResponseWriter)
    (req : Request) (err : any) (w : World) :
  exists (level : Level) (message : string) (fields : gmap string any)
         (status : Z) (body : json),
    events (exec (Handler rw req err) w) =
    events w ++ [Logged level message fields; Written rw status body]
    /\ fields !! "stack" =
       (if is_SentinelError err then process_logger w !! "stack"
        else Some (any_string (goroutine_stack w))).
Proof.
  destruct (is_SentinelError err) eqn:Hs.
  - destruct err as [| [e | | | | |] | | |]; try discriminate Hs.
    rewrite Handler_Error. eexists _, _, _, _, _. split; [reflexivity |].
    rewrite lookup_union_r.
    + now rewrite lookup_insert_ne by discriminate.
    + rewrite lookup_insert_ne by discriminate.
      now rewrite lookup_singleton_ne by discriminate.
  - destruct (is_error err) eqn:He.
    + destruct err as [| e | | |]; try discriminate He.
      rewrite (Handler_error rw req e w Hs).
      eexists _, _, _, _, _. split; [reflexivity |]. apply lookup_insert_eq.
    + rewrite (Handler_default rw req err w He).
      eexists _, _, _, _, _. split; [reflexivity |]. apply lookup_insert_eq.
Qed.

(** X17: [NotFound] does what [Handler] does with [ErrRouteNotFound]: for
    every request it logs once at informational severity and answers 404
    with the body [{"error":"no API found with those values"}]. *)
Theorem X17_NotFound (rw : ResponseWriter) (req : Request) (w : World) :
  exec (NotFound rw req) w =
  add_events w
    [Logged InfoLevel "Internal error handled"
       ({[ "code" := any_int 404;
           "error" := any_string "no API found with those values" ]}
          ∪ <["request-id" := correlation req]> (process_logger w));
     Written rw 404
       (JObject [("error", JString "no API found with those values")])].
Proof. unfold NotFound. now rewrite Handler_Error. Qed.

(** X18: once an error has been through at least one wrap-style call,
    [Handler] answers it with status 500 and, as body, the JSON string of
    the whole prefixed message, also when the error wrapped is a [*Error]
    with a status of its own. *)
Theorem X18_wrapped_errors_are_answered_500
    (fmt_Sprintf : string -> list any -> string) (rw : ResponseWriter)
    (req : Request) (w : World) (cs : list wrap_call) (e : error) :
  cs <> [] ->
  exists fields : gmap string any,
    events (exec (Handler rw req (to_any (do_calls fmt_Sprintf cs (Some e)))) w) =
    events w ++
      [Logged ErrorLevel "Internal server error handled" fields;
       Written rw 500
         (JString (fold_left (prefixed fmt_Sprintf) cs (error_Error e)))].
Proof.
  intros Hcs.
  pose proof (do_calls_not_sentinel fmt_Sprintf cs e Hcs) as Hs.
  destruct (do_calls_some fmt_Sprintf cs e) as (e' & H & _ & HE).
  rewrite H in *. cbn [to_any] in *.
  rewrite (Handler_error rw req e' w Hs). rewrite HE. now eexists.
Qed.

Lemma X18_wrapped_errors_are_answered_500_witness :
  [call_Wrap (stack_at "main.route" 31) "lookup"] <> []
  /\ exists fields : gmap string any,
       events (exec (Handler 1%N request_42
                       (to_any (do_calls (fun format _ => format)
                                  [call_Wrap (stack_at "main.route" 31) "lookup"]
                                  (Some (ptr_Error ErrRouteNotFound)))))
                 world_0) =
       events world_0 ++
         [Logged ErrorLevel "Internal server error handled" fields;
          Written 1%N 500
            (JString (fold_left (prefixed (fun format _ => format))
                        [call_Wrap (stack_at "main.route" 31) "lookup"]
                        (error_Error (ptr_Error ErrRouteNotFound))))].
Proof.
  split; [discriminate |].
  refine (X18_wrapped_errors_are_answered_500 (fun format _ => format)
            1%N request_42 world_0
            [call_Wrap (stack_at "main.route" 31) "lookup"]
            (ptr_Error ErrRouteNotFound) _).
  discriminate.
Defined.

(** X19: wrapping a nil error, however many times, and handing the result
    to [Handler] is handing it nil: the call logs once at error severity and
    answers 500 with the body [null]. *)
Theorem X19_wrapped_nil_is_answered_500
    (fmt_Sprintf : string -> list any -> string) (rw : ResponseWriter)
    (req : Request) (w : World) (cs : list wrap_call) :
  exec (Handler rw req (to_any (do_calls fmt_Sprintf cs None))) w =
  add_events w
    [Logged ErrorLevel "Internal server error handled"
       (<["stack" := any_string (goroutine_stack w)]>
          (<["error" := nil_any]>
             (<["request-id" := correlation req]> (process_logger w))));
     Written rw 500 JNull].
Proof. rewrite do_calls_nil. cbn [to_any]. now rewrite Handler_default. Qed.

Lemma X6_wraps_keep_nil_and_only_nil_witness :
  do_calls (fun format _ => format)
    [call_WithMessage "read"; call_WithStack (stack_at "main.read" 9);
     call_Wrapf (stack_at "main.load" 12) "load" []]
    None = None.
Proof.
  exact (proj2 (X6_wraps_keep_nil_and_only_nil (fun format _ => format)
                  [call_WithMessage "read"; call_WithStack (stack_at "main.read" 9);
                   call_Wrapf (stack_at "main.load" 12) "load" []]
                  None) eq_refl).
Defined.

(** X20: an error made by [New] or by [Errorf] is the root cause of
    whatever a run of wrap-style calls makes of it: [Cause] gives back that
    very value, with its message and its snapshot. *)
Theorem X20_New_is_recovered_by_Cause
    (fmt_Sprintf : string -> list any -> string) (cs : list wrap_call)
    (callers : stack) (message format : string) (args : list any) :
  Cause (do_calls fmt_Sprintf cs (New callers message)) = New callers message
  /\ Cause (do_calls fmt_Sprintf cs (Errorf fmt_Sprintf callers format args))
     = Errorf fmt_Sprintf callers format args.
Proof.
  unfold New, Errorf. split.
  - destruct (do_calls_some fmt_Sprintf cs (ptr_fundamental message callers))
      as (e' & H & HC & _).
    rewrite H. exact HC.
  - destruct (do_calls_some fmt_Sprintf cs
                (ptr_fundamental (fmt_Sprintf format args) callers))
      as (e' & H & HC & _).
    rewrite H. exact HC.
Qed.
